(** * mtgss_manager: the workflow orchestrator of the collection spreadsheet manager

    A shallow embedding of [src/mtgss_manager.py] ([run_commands] and [main])
    and the properties of its phase sequence.

    The script itself only sequences calls: the catalog loader, the two
    format adapters ([mtgcdb.manager_helper]) and the relational session
    (SQLAlchemy) are collaborators whose bodies are not part of the script.
    They are modelled as _calls_ whose outcome (returns / raises) and whose
    effect on the session are chosen by an environment; the script is an
    executable program in a state-and-exception monad that records every
    call it makes, in order, together with its outcome. *)

From Stdlib Require Import Ascii String List Bool.
From ExtLib Require Import Structures.Monad Structures.MonadExc.
Import ListNotations.
Import MonadNotation.
Local Open Scope string_scope.
Local Open Scope list_scope.
Local Open Scope monad_scope.

(** ** Command line arguments, as [parser.parse_args()] returns them *)

(** The four sub-parsers of [get_parser] ([cmd_subparser.required = True]).
    [export] and [import] carry a [--format] option (a string; the parser
    offers the single choice ['csv']) and a file name; [create] and
    [update] define neither attribute. *)
Inductive subcommand : Type :=
| SubCreate
| SubUpdate
| SubExport (format export_file : string)
| SubImport (format import_file : string).

Record Args : Type := mkArgs {
  data_path : string;
  include_online_only : bool;
  debug_stats : bool;
  spreadsheet_file : string;
  subcmd : subcommand
}.

(** [args.command]: the name the sub-parser was registered under. *)
Definition command (args : Args) : string :=
  match subcmd args with
  | SubCreate => "create"
  | SubUpdate => "update"
  | SubExport _ _ => "export"
  | SubImport _ _ => "import"
  end.

(** [args.format], [args.export_file], [args.import_file]: present only on
    the namespaces of the sub-parsers that declare them. *)
Definition format (args : Args) : option string :=
  match subcmd args with
  | SubExport f _ | SubImport f _ => Some f
  | _ => None
  end.

Definition export_file (args : Args) : option string :=
  match subcmd args with
  | SubExport _ f => Some f
  | _ => None
  end.

Definition import_file (args : Args) : option string :=
  match subcmd args with
  | SubImport _ f => Some f
  | _ => None
  end.

(** [x in {s1, ..., sn}] on strings. *)
Fixpoint str_in (x : string) (l : list string) : bool :=
  match l with
  | [] => false
  | y :: l' => if String.eqb x y then true else str_in x l'
  end.

(** ** The calls the script makes *)

Inductive call : Type :=
| MakeDirs (path : string)                       (* os.makedirs(path) *)
| ProfilingStart                                 (* profiling.start() *)
| ProfilingFinish                                (* profiling.finish(profiler) *)
| CreateEngine (url : string)                    (* sqla.create_engine(url) *)
| SessionMaker                                   (* sqlo.sessionmaker(engine) *)
| NewSession                                     (* session_factory() *)
| ReadMtgjson (path : string) (online : bool)    (* manager_helper.read_mtgjson *)
| ReadXlsx (file : string)                       (* manager_helper.read_xlsx *)
| ReadCsv (file : string)                        (* manager_helper.read_csv *)
| WriteXlsx (file : string)                      (* manager_helper.write_xlsx *)
| WriteCsv (file : string)                       (* manager_helper.write_csv *)
| Commit                                         (* session.commit() *)
| Close.                                         (* session.close() *)

Inductive outcome : Type := Returned | Raised.

(** One entry of the run's record: the call and how it ended. *)
Definition event : Type := (call * outcome)%type.

Definition is_load (c : call) : bool :=
  match c with
  | ReadMtgjson _ _ | ReadXlsx _ | ReadCsv _ => true
  | _ => false
  end.

Definition is_write (c : call) : bool :=
  match c with
  | WriteXlsx _ | WriteCsv _ => true
  | _ => false
  end.

(** The phases of a run: the three loads and the two target writes. *)
Definition is_phase (c : call) : bool := is_load c || is_write c.

(** The calls that work on the session. *)
Definition is_session_call (c : call) : bool :=
  match c with
  | NewSession | Commit | Close => true
  | _ => is_phase c
  end.

(** The file a write call replaces. *)
Definition write_target (c : call) : option string :=
  match c with
  | WriteXlsx f | WriteCsv f => Some f
  | _ => None
  end.

(** ** The relational store and the outside world *)

(** Rows are opaque to the script. *)
Definition row : Type := string.
Definition db : Type := list row.

(** What a database URL denotes.  ['sqlite://'] and ['sqlite:///'] (no
    path) and ['sqlite:///:memory:'] are SQLite's in-memory database, private
    to the engine and empty when it is created; any other URL names a
    database that outlives the process. *)
Inductive engine : Type :=
| InMemory
| OnDisk (url : string).

Definition engine_of_url (url : string) : engine :=
  if String.eqb url "sqlite://" then InMemory
  else if String.eqb url "sqlite:///" then InMemory
  else if String.eqb url "sqlite:///:memory:" then InMemory
  else OnDisk url.

Inductive node : Type := Absent | Folder | File.

(** What survives between two invocations of the script: what each path of
    the file system is (as [os.path.exists] and [os.path.isdir] see it),
    which file each path names (two paths with the same [w_real] are two
    names of one file: a leading ['./'], a link, an absolute and a relative
    form), and the content of every persistent database. *)
Record world : Type := mkWorld {
  w_node : string -> node;
  w_real : string -> string;
  w_dbs : string -> db
}.

(** [os.makedirs(p)] that returned: [p] is a folder now.  On its way the
    call makes a folder of every missing parent of [p], and the other names
    of those folders are folders as well; [also] tells which of the paths
    that were absent these are.  What existed already is left as it was. *)
Definition make_dirs (also : string -> bool) (p : string) (w : world) : world :=
  mkWorld (fun q => if String.eqb q p then Folder
                    else match w_node w q with
                         | Absent => if also q then Folder else Absent
                         | n => n
                         end)
          (w_real w) (w_dbs w).

Definition set_db (u : string) (d : db) (w : world) : world :=
  mkWorld (w_node w) (w_real w)
          (fun v => if String.eqb v u then d else w_dbs w v).

(** Does the call write the file that [path] names? *)
Definition writes_file (w : world) (path : string) (c : call) : bool :=
  match write_target c with
  | Some f => String.eqb (w_real w f) (w_real w path)
  | None => false
  end.

(** The rows an engine starts with. *)
Definition open_store (e : engine) (w : world) : db :=
  match e with
  | InMemory => []
  | OnDisk u => w_dbs w u
  end.

(** Where a commit lands outside the process. *)
Definition persist (e : option engine) (d : db) (w : world) : world :=
  match e with
  | Some (OnDisk u) => set_db u d w
  | _ => w
  end.

(** ** Process state *)

Record state : Type := mkState {
  st_trace : list event;          (* calls made so far, oldest first *)
  st_world : world;
  st_engine : option engine;
  st_committed : db;              (* rows committed to the engine *)
  st_working : db                 (* the session's view: committed rows and
                                     the changes staged since *)
}.

(** A process starts with nothing but the world it finds. *)
Definition boot (w : world) : state := mkState [] w None [] [].

(** The environment of a run decides, for every fallible call and given
    everything that happened before it, whether the call raises, and what a
    helper that is handed the session stages in it; which other paths
    [os.makedirs(p)] made folders of; and whether [profiling.start()]
    returned a profiler or [None]. *)
Record env : Type := mkEnv {
  raises : list event -> call -> bool;
  effect : list event -> call -> db -> db;
  made : list event -> string -> string -> bool;
  gives_profiler : list event -> bool
}.

Inductive exn : Type :=
| CallFailed (c : call)             (* an exception raised inside a call *)
| AttributeError (name : string)    (* attribute missing on the namespace *)
| Exception (msg : string).         (* raise Exception(msg) *)

Inductive result (A : Type) : Type :=
| Ok (a : A)
| Exc (e : exn).
Arguments Ok {A} a.
Arguments Exc {A} e.

(** ** The monad of the script: environment, state, exceptions *)

Definition M (A : Type) : Type := env -> state -> result A * state.

Definition M_ret {A} (a : A) : M A := fun _ s => (Ok a, s).

Definition M_bind {A B} (m : M A) (k : A -> M B) : M B :=
  fun e s =>
    match m e s with
    | (Ok a, s') => k a e s'
    | (Exc x, s') => (Exc x, s')
    end.

#[global] Instance Monad_M : Monad M :=
  {| ret := @M_ret; bind := @M_bind |}.

Definition M_raise {A} (x : exn) : M A := fun _ s => (Exc x, s).

Definition M_catch {A} (m : M A) (h : exn -> M A) : M A :=
  fun e s =>
    match m e s with
    | (Ok a, s') => (Ok a, s')
    | (Exc x, s') => h x e s'
    end.

#[global] Instance MonadExc_M : MonadExc exn M :=
  {| raise := @M_raise; catch := @M_catch |}.

(** [try: body finally: fin].  [fin] runs whatever [body] did; an exception
    of [fin] replaces the pending one, otherwise the outcome of [body]
    stands. *)
Definition try_finally {A} (body : M A) (fin : M unit) : M A :=
  fun e s =>
    let (r, s1) := body e s in
    match fin e s1 with
    | (Ok _, s2) => (r, s2)
    | (Exc x, s2) => (Exc x, s2)
    end.

(** [if c: m] *)
Definition when (c : bool) (m : M unit) : M unit :=
  if c then m else ret tt.

(** Reading an attribute of the namespace. *)
Definition attr {A} (name : string) (o : option A) : M A :=
  match o with
  | Some a => ret a
  | None => raise (AttributeError name)
  end.

(** ** Primitive calls *)

Definition log (c : call) (o : outcome) (s : state) : state :=
  mkState (st_trace s ++ [(c, o)]) (st_world s) (st_engine s)
          (st_committed s) (st_working s).

(** What a call does to the state besides being recorded.
    - a helper is handed the session and stages changes in it, also when it
      raises half way; the commits are those of the script;
    - [session.commit()] that returns makes the staged changes permanent;
    - [session.close()] drops what was staged and not committed;
    - [os.makedirs] that returns leaves a folder behind, and its parents.
    The files the helpers read and write are theirs: [w_node] follows the
    [os] calls of the script only. *)
Definition apply_call (e : env) (c : call) (o : outcome) (s : state) : state :=
  let h := st_trace s in
  match c, o with
  | (ReadMtgjson _ _ | ReadXlsx _ | ReadCsv _ | WriteXlsx _ | WriteCsv _), _ =>
      mkState h (st_world s) (st_engine s) (st_committed s)
              (effect e h c (st_working s))
  | Commit, Returned =>
      mkState h (persist (st_engine s) (st_working s) (st_world s))
              (st_engine s) (st_working s) (st_working s)
  | Close, _ =>
      mkState h (st_world s) (st_engine s) (st_committed s) (st_committed s)
  | MakeDirs p, Returned =>
      mkState h (make_dirs (made e h p) p (st_world s)) (st_engine s)
              (st_committed s) (st_working s)
  | _, _ => s
  end.

(** A call that may raise. *)
Definition invoke (c : call) : M unit :=
  fun e s =>
    if raises e (st_trace s) c
    then (Exc (CallFailed c), log c Raised (apply_call e c Raised s))
    else (Ok tt, log c Returned (apply_call e c Returned s)).

(** [sqla.create_engine(url)]: builds the engine object; nothing is
    connected yet, the call does no I/O. *)
Definition create_engine (url : string) : M engine :=
  fun _ s =>
    let g := engine_of_url url in
    let d := open_store g (st_world s) in
    (Ok g, log (CreateEngine url) Returned
             (mkState (st_trace s) (st_world s) (Some g) d d)).

(** [sqlo.sessionmaker(engine)]: a factory, and [session_factory()]: a new
    session on the engine, with nothing staged. *)
Definition sessionmaker (g : engine) : M unit :=
  fun _ s => (Ok tt, log SessionMaker Returned s).

Definition session_factory : M unit :=
  fun _ s =>
    (Ok tt, log NewSession Returned
              (mkState (st_trace s) (st_world s) (st_engine s)
                       (st_committed s) (st_committed s))).

(** [profiling.start()]: raises, or returns what the script keeps as
    [profiler]: a profiler, or [None]. *)
Definition profiling_start : M (option unit) :=
  fun e s =>
    if raises e (st_trace s) ProfilingStart
    then (Exc (CallFailed ProfilingStart), log ProfilingStart Raised s)
    else (Ok (if gives_profiler e (st_trace s) then Some tt else None),
          log ProfilingStart Returned s).

(** [os.path.exists] and [os.path.isdir] *)
Definition path_exists (p : string) : M bool :=
  fun _ s => (Ok (match w_node (st_world s) p with Absent => false | _ => true end), s).

Definition path_isdir (p : string) : M bool :=
  fun _ s => (Ok (match w_node (st_world s) p with Folder => true | _ => false end), s).

(** ** The script *)

(** [run_commands(args)] *)
Definition run_commands (args : Args) : M unit :=
  engine <- create_engine "sqlite://" ;;
  sessionmaker engine ;;
  session_factory ;;
  try_finally
    (invoke (ReadMtgjson (data_path args) (include_online_only args)) ;;
     invoke Commit ;;

     when (str_in (command args) ["update"; "export"])
          (invoke (ReadXlsx (spreadsheet_file args))) ;;
     invoke Commit ;;

     when (str_in (command args) ["import"])
          (fmt <- attr "format" (format args) ;;
           when (String.eqb fmt "csv")
                (f <- attr "import_file" (import_file args) ;;
                 invoke (ReadCsv f))) ;;
     invoke Commit ;;

     when (str_in (command args) ["create"; "update"])
          (invoke (WriteXlsx (spreadsheet_file args))) ;;

     when (str_in (command args) ["export"])
          (fmt <- attr "format" (format args) ;;
           when (String.eqb fmt "csv")
                (f <- attr "export_file" (export_file args) ;;
                 invoke (WriteCsv f))))
    (invoke Close).

(** [main()], from the parsed arguments on. *)
Definition main (args : Args) : M unit :=
  ex <- path_exists (data_path args) ;;
  (if negb ex then invoke (MakeDirs (data_path args))
   else
     isdir <- path_isdir (data_path args) ;;
     if negb isdir
     then raise (Exception ("data_path: " ++ data_path args ++ " must be a folder"))
     else ret tt) ;;
  profiler <- (if debug_stats args
               then profiling_start
               else ret None) ;;
  try_finally
    (run_commands args)
    (match profiler with
     | Some _ => invoke ProfilingFinish
     | None => ret tt
     end).

(** Running a program of the script from a freshly started process. *)
Definition run {A} (m : M A) (e : env) (w : world) : result A * state :=
  m e (boot w).

Definition trace_of {A} (m : M A) (e : env) (w : world) : list event :=
  st_trace (snd (run m e w)).

Definition calls_of {A} (m : M A) (e : env) (w : world) : list call :=
  map fst (trace_of m e w).

(** ** Sample environments and worlds *)

Definition call_eq_dec (a b : call) : {a = b} + {a <> b}.
Proof. decide equality; first [apply string_dec | apply bool_dec]. Defined.

Definition call_eqb (a b : call) : bool :=
  if call_eq_dec a b then true else false.

(** The row a helper leaves in the session in the sample environments. *)
Definition row_of (c : call) : db :=
  match c with
  | ReadMtgjson p _ => [("catalog:" ++ p)%string]
  | ReadXlsx f => [("xlsx:" ++ f)%string]
  | ReadCsv f => [("csv:" ++ f)%string]
  | _ => []
  end.

Definition staging (_ : list event) (c : call) (d : db) : db := d ++ row_of c.

(** [q] is a parent folder of [p], read off the path strings. *)
Definition parent_of (_ : list event) (p q : string) : bool :=
  negb (String.eqb q "") && String.prefix (q ++ "/") p.

(** Nothing raises; [profiling.start()] returns a profiler. *)
Definition env_ok : env :=
  mkEnv (fun _ _ => false) staging parent_of (fun _ => true).

(** Exactly the call [c] raises, whenever it is made. *)
Definition env_failing (c : call) : env :=
  mkEnv (fun _ c' => call_eqb c c') staging parent_of (fun _ => true).

(** Nothing raises; [profiling.start()] returns [None]. *)
Definition env_no_profiler : env :=
  mkEnv (fun _ _ => false) staging parent_of (fun _ => false).

(** Dropping the ['./'] a path starts with. *)
Fixpoint strip_dot_slash (p : string) : string :=
  match p with
  | String "."%char (String "/"%char rest) => strip_dot_slash rest
  | _ => p
  end.

(** A world with the data folder in place, a plain file next to it and
    nothing else; a path names the same file with or without a leading
    ['./']; one persistent database holds a row left by some earlier
    program. *)
Definition sample_world : world :=
  mkWorld (fun x => if String.eqb x "/home/u/.mtgcdb" then Folder
                    else if String.eqb x "/home/u/notes.txt" then File
                    else Absent)
          strip_dot_slash
          (fun u => if String.eqb u "sqlite:///old.db" then ["stale row"] else []).

Definition sample_args (sc : subcommand) : Args :=
  mkArgs "/home/u/.mtgcdb" false false "coll.xlsx" sc.

(** ** Reading a run's record *)

(** What every run of [run_commands] starts with: the engine, the factory
    and the session. *)
Definition session_setup : list event :=
  [(CreateEngine "sqlite://", Returned); (SessionMaker, Returned);
   (NewSession, Returned)].

(** The first phase (load or write) of a record, if it has one. *)
Definition first_phase (t : list event) : option call :=
  find is_phase (map fst t).

(** How many commits went through. *)
Definition returned_commits (t : list event) : nat :=
  length (filter (fun ev => match ev with
                            | (Commit, Returned) => true
                            | _ => false
                            end) t).

Definition is_close (c : call) : bool :=
  match c with Close => true | _ => false end.

Definition is_commit (c : call) : bool :=
  match c with Commit => true | _ => false end.

Definition ends_with {X} (t suffix : list X) : Prop :=
  exists pre, t = pre ++ suffix.

(** Every load that returned is followed at once by a commit. *)
Fixpoint loads_committed (t : list event) : bool :=
  match t with
  | [] => true
  | (c, Returned) :: rest =>
      (if is_load c
       then match rest with
            | (Commit, _) :: _ => true
            | _ => false
            end
       else true) && loads_committed rest
  | _ :: rest => loads_committed rest
  end.

(** No commit is called once a target write has been called. *)
Fixpoint no_commit_after_write (l : list call) : bool :=
  match l with
  | [] => true
  | c :: rest =>
      (if is_write c then negb (existsb is_commit rest) else true)
      && no_commit_after_write rest
  end.

(** Does a phase begin in [t] before any commit has returned? *)
Fixpoint phase_before_commit (t : list event) : bool :=
  match t with
  | [] => false
  | (Commit, Returned) :: _ => false
  | (c, _) :: rest => is_phase c || phase_before_commit rest
  end.

(** After every load, no phase begins before a commit has returned. *)
Fixpoint loads_separated (t : list event) : bool :=
  match t with
  | [] => true
  | (c, _) :: rest =>
      (if is_load c then negb (phase_before_commit rest) else true)
      && loads_separated rest
  end.

(** What the catalog load leaves in the session it is handed empty, and
    what the prior spreadsheet read makes of that. *)
Definition catalog_rows (args : Args) (e : env) : db :=
  effect e session_setup
         (ReadMtgjson (data_path args) (include_online_only args)) [].

Definition prior_rows (args : Args) (e : env) : db :=
  effect e
         (session_setup ++
          [(ReadMtgjson (data_path args) (include_online_only args), Returned);
           (Commit, Returned)])
         (ReadXlsx (spreadsheet_file args))
         (catalog_rows args e).

(** ** Further readings of a record *)

(** The last call of a record that raised, if any. *)
Fixpoint last_raised (t : list event) : option call :=
  match t with
  | [] => None
  | (c, o) :: rest =>
      match last_raised rest with
      | Some c' => Some c'
      | None => match o with
                | Raised => Some c
                | Returned => None
                end
      end
  end.

(** How a program that only propagates exceptions ends, given its record:
    with the exception of the last call that raised, normally if none did. *)
Definition outcome_of (t : list event) : result unit :=
  match last_raised t with
  | Some c => Exc (CallFailed c)
  | None => Ok tt
  end.

Definition is_catalog_load (c : call) : bool :=
  match c with ReadMtgjson _ _ => true | _ => false end.

Definition is_new_session (c : call) : bool :=
  match c with NewSession => true | _ => false end.

Definition is_profiling (c : call) : bool :=
  match c with ProfilingStart | ProfilingFinish => true | _ => false end.

Definition is_makedirs (c : call) : bool :=
  match c with MakeDirs _ => true | _ => false end.

(** [os.makedirs] is called first or not at all. *)
Definition makedirs_first (l : list call) : bool :=
  match l with
  | [] => true
  | _ :: rest => negb (existsb is_makedirs rest)
  end.

(** No call on the session follows a [session.close()]. *)
Fixpoint nothing_after_close (l : list call) : bool :=
  match l with
  | [] => true
  | c :: rest =>
      (if is_close c then negb (existsb is_session_call rest) else true)
      && nothing_after_close rest
  end.

(** What the import read makes of the catalog rows. *)
Definition import_rows (args : Args) (e : env) (f : string) : db :=
  effect e
         (session_setup ++
          [(ReadMtgjson (data_path args) (include_online_only args), Returned);
           (Commit, Returned); (Commit, Returned)])
         (ReadCsv f)
         (catalog_rows args e).

(** The rows the loads of an operation put together. *)
Definition loaded_rows (args : Args) (e : env) : db :=
  match subcmd args with
  | SubCreate => catalog_rows args e
  | SubUpdate | SubExport _ _ => prior_rows args e
  | SubImport fmt f =>
      if String.eqb fmt "csv" then import_rows args e f else catalog_rows args e
  end.

(** ** Reasoning rules: the script, one call at a time *)

(** [wp m e s Q]: running [m] in environment [e] from state [s] ends with a
    result and a state that satisfy [Q]. *)
Definition wp {A} (m : M A) (e : env) (s : state)
           (Q : result A -> state -> Prop) : Prop :=
  Q (fst (m e s)) (snd (m e s)).

Section Rules.
Context {A B : Type}.
Variables (e : env) (s : state).

Lemma wp_ret (a : A) (Q : result A -> state -> Prop) :
  Q (Ok a) s -> wp (ret a) e s Q.
Proof. exact (fun H => H). Qed.

Lemma wp_raise (x : exn) (Q : result A -> state -> Prop) :
  Q (Exc x) s -> wp (raise x) e s Q.
Proof. exact (fun H => H). Qed.

Lemma wp_bind (m : M A) (k : A -> M B) (Q : result B -> state -> Prop) :
  wp m e s (fun r s' => match r with
                        | Ok a => wp (k a) e s' Q
                        | Exc x => Q (Exc x) s'
                        end) ->
  wp (bind m k) e s Q.
Proof.
  unfold wp; cbn; unfold M_bind.
  destruct (m e s) as [[a | x] s']; cbn; trivial.
Qed.

Lemma wp_try_finally (body : M A) (fin : M unit)
      (Q : result A -> state -> Prop) :
  wp body e s (fun r s1 =>
    wp fin e s1 (fun r' s2 => match r' with
                              | Ok _ => Q r s2
                              | Exc x => Q (Exc x) s2
                              end)) ->
  wp (try_finally body fin) e s Q.
Proof.
  unfold wp, try_finally.
  destruct (body e s) as [r s1]; cbn.
  destruct (fin e s1) as [[u | x] s2]; cbn; trivial.
Qed.

Lemma wp_invoke (c : call) (Q : result unit -> state -> Prop) :
  (raises e (st_trace s) c = true ->
   Q (Exc (CallFailed c)) (log c Raised (apply_call e c Raised s))) ->
  (raises e (st_trace s) c = false ->
   Q (Ok tt) (log c Returned (apply_call e c Returned s))) ->
  wp (invoke c) e s Q.
Proof.
  unfold wp, invoke.
  destruct (raises e (st_trace s) c); cbn; auto.
Qed.

Lemma wp_when (c : bool) (m : M unit) (Q : result unit -> state -> Prop) :
  (c = true -> wp m e s Q) ->
  (c = false -> Q (Ok tt) s) ->
  wp (when c m) e s Q.
Proof. intros H1 H2; destruct c; [apply H1 | apply H2]; reflexivity. Qed.

Lemma wp_attr (name : string) (o : option A)
      (Q : result A -> state -> Prop) :
  match o with
  | Some a => Q (Ok a) s
  | None => Q (Exc (AttributeError name)) s
  end ->
  wp (attr name o) e s Q.
Proof. destruct o; exact (fun H => H). Qed.

Lemma wp_create_engine (url : string) (Q : result engine -> state -> Prop) :
  Q (Ok (engine_of_url url))
    (log (CreateEngine url) Returned
       (mkState (st_trace s) (st_world s) (Some (engine_of_url url))
                (open_store (engine_of_url url) (st_world s))
                (open_store (engine_of_url url) (st_world s)))) ->
  wp (create_engine url) e s Q.
Proof. exact (fun H => H). Qed.

Lemma wp_sessionmaker (g : engine) (Q : result unit -> state -> Prop) :
  Q (Ok tt) (log SessionMaker Returned s) -> wp (sessionmaker g) e s Q.
Proof. exact (fun H => H). Qed.

Lemma wp_session_factory (Q : result unit -> state -> Prop) :
  Q (Ok tt) (log NewSession Returned
               (mkState (st_trace s) (st_world s) (st_engine s)
                        (st_committed s) (st_committed s))) ->
  wp session_factory e s Q.
Proof. exact (fun H => H). Qed.

Lemma wp_profiling_start (Q : result (option unit) -> state -> Prop) :
  (raises e (st_trace s) ProfilingStart = true ->
   Q (Exc (CallFailed ProfilingStart)) (log ProfilingStart Raised s)) ->
  (raises e (st_trace s) ProfilingStart = false ->
   gives_profiler e (st_trace s) = true ->
   Q (Ok (Some tt)) (log ProfilingStart Returned s)) ->
  (raises e (st_trace s) ProfilingStart = false ->
   gives_profiler e (st_trace s) = false ->
   Q (Ok None) (log ProfilingStart Returned s)) ->
  wp profiling_start e s Q.
Proof.
  unfold wp, profiling_start.
  destruct (raises e (st_trace s) ProfilingStart),
           (gives_profiler e (st_trace s)); cbn; auto.
Qed.

Lemma wp_path_exists (p : string) (Q : result bool -> state -> Prop) :
  Q (Ok (match w_node (st_world s) p with Absent => false | _ => true end)) s ->
  wp (path_exists p) e s Q.
Proof. exact (fun H => H). Qed.

Lemma wp_path_isdir (p : string) (Q : result bool -> state -> Prop) :
  Q (Ok (match w_node (st_world s) p with Folder => true | _ => false end)) s ->
  wp (path_isdir p) e s Q.
Proof. exact (fun H => H). Qed.
End Rules.

(** Every statement about a run is a [wp] from the booted process. *)
Lemma wp_run {A} (m : M A) (e : env) (w : world)
      (Q : result A -> state -> Prop) :
  wp m e (boot w) Q -> Q (fst (run m e w)) (snd (run m e w)).
Proof. exact (fun H => H). Qed.

(** Normalising the state after a call. *)
Ltac tidy :=
  cbn [log apply_call persist open_store engine_of_url String.eqb Ascii.eqb
       Bool.eqb st_trace st_world st_engine st_committed st_working app
       boot when str_in command format export_file import_file subcmd
       data_path include_online_only debug_stats spreadsheet_file negb] in *.

(** One step of the script. *)
Ltac wp_step :=
  lazymatch goal with
  | |- wp (bind _ _) _ _ _ => apply wp_bind
  | |- wp (try_finally _ _) _ _ _ => apply wp_try_finally
  | |- wp (invoke _) _ _ _ => apply wp_invoke; intros ?
  | |- wp profiling_start _ _ _ => apply wp_profiling_start; [intros ? | intros ? ? | intros ? ?]
  | |- wp (create_engine _) _ _ _ => apply wp_create_engine
  | |- wp (sessionmaker _) _ _ _ => apply wp_sessionmaker
  | |- wp session_factory _ _ _ => apply wp_session_factory
  | |- wp (path_exists _) _ _ _ => apply wp_path_exists
  | |- wp (path_isdir _) _ _ _ => apply wp_path_isdir
  | |- wp (attr _ _) _ _ _ => apply wp_attr
  | |- wp (ret _) _ _ _ => apply wp_ret
  | |- wp (raise _) _ _ _ => apply wp_raise
  | |- wp (when (String.eqb ?f ?g) _) _ _ _ =>
      apply wp_when; intros ?
  end; tidy.

Ltac wp_steps := tidy; repeat wp_step.

(** All the paths of [run_commands], for the four operations. *)
Ltac paths args :=
  destruct args as [? ? ? ? [| | ? ? | ? ?]];
  unfold run_commands; wp_steps.

(** ** Properties of [run_commands] *)

Lemma csv_eqb (f : string) : String.eqb f "csv" = true -> f = "csv".
Proof. apply String.eqb_eq. Qed.

Lemma ends_with_here {X} (t : list X) : ends_with t t.
Proof. exists []; reflexivity. Qed.

Lemma ends_with_cons {X} (x : X) (t suffix : list X) :
  ends_with t suffix -> ends_with (x :: t) suffix.
Proof. intros [pre ->]; exists (x :: pre); reflexivity. Qed.

(** Finding the suffix of an explicit list. *)
Ltac find_suffix :=
  first [ apply ends_with_here | apply ends_with_cons; find_suffix ].

Lemma loads_committed_sound (t : list event) :
  loads_committed t = true ->
  forall pre c post,
    t = pre ++ (c, Returned) :: post -> is_load c = true ->
    exists o post', post = (Commit, o) :: post'.
Proof.
  intros H pre; revert t H.
  induction pre as [| ev pre IH]; intros t H c post -> L; cbn in H.
  - rewrite L in H. apply andb_true_iff in H as [H _].
    destruct post as [| [[] o] post']; try discriminate; eauto.
  - destruct ev as [c' []].
    + apply andb_true_iff in H as [_ H]. eapply IH; eauto.
    + eapply IH; eauto.
Qed.

Lemma no_commit_after_write_sound (t : list event) :
  no_commit_after_write (map fst t) = true ->
  forall pre c o post,
    t = pre ++ (c, o) :: post -> is_write c = true ->
    ~ In Commit (map fst post).
Proof.
  intros H pre; revert t H.
  induction pre as [| ev pre IH]; intros t H c o post -> W; cbn in H;
    apply andb_true_iff in H as [H1 H2].
  - rewrite W in H1. apply negb_true_iff in H1. intros HIn.
    assert (existsb is_commit (map fst post) = true) as E
        by (apply existsb_exists; exists Commit; split; [exact HIn | reflexivity]).
    congruence.
  - eapply IH; eauto.
Qed.

Lemma phase_before_commit_app (mid : list event) (c : call) (o : outcome)
      (post : list event) :
  is_phase c = true ->
  phase_before_commit (mid ++ (c, o) :: post) = false ->
  In (Commit, Returned) mid.
Proof.
  intros P. induction mid as [| [c' o'] mid IH]; cbn [app]; intros H.
  - destruct c; cbn in P, H; discriminate.
  - destruct c', o'; cbn in H;
      first [ left; reflexivity | right; apply IH; exact H | discriminate H ].
Qed.

Lemma loads_separated_sound (t : list event) :
  loads_separated t = true ->
  forall pre c o mid c' o' post,
    t = pre ++ (c, o) :: mid ++ (c', o') :: post ->
    is_load c = true -> is_phase c' = true ->
    In (Commit, Returned) mid.
Proof.
  intros H pre; revert t H.
  induction pre as [| [c0 o0] pre IH]; intros t H c o mid c' o' post -> L P;
    cbn in H; apply andb_true_iff in H as [H1 H2].
  - rewrite L in H1. apply negb_true_iff in H1.
    eapply phase_before_commit_app; eauto.
  - eapply IH; eauto.
Qed.

(** A statement about the members of an explicit list, by cases. *)
Ltac members :=
  repeat match goal with
         | H : In _ (_ :: _) |- _ => destruct H as [H | H]
         | H : In _ [] |- _ => destruct H
         | H : _ \/ _ |- _ => destruct H as [H | H]
         | H : False |- _ => destruct H
         | H : (_, _) = (_, _) |- _ => inversion H; clear H; subst
         | H : _ = _ :> call |- _ => first [ discriminate H | inversion H; clear H; subst ]
         end.

(** C4.  For every operation, and whatever the helpers do, the catalog load
    [read_mtgjson(session, args.data_path, args.include_online_only)] is
    called, and it is the first phase of the run: the record of the run is
    the creation of the session followed by that call, so no spreadsheet
    read, import read or write comes before it. *)
Theorem catalog_load_is_first_phase (args : Args) (e : env) (w : world) :
  first_phase (trace_of (run_commands args) e w)
  = Some (ReadMtgjson (data_path args) (include_online_only args))
  /\ exists o rest,
       trace_of (run_commands args) e w
       = session_setup
         ++ (ReadMtgjson (data_path args) (include_online_only args), o) :: rest.
Proof.
  unfold trace_of.
  apply (wp_run (run_commands args) e w
           (fun _ s =>
              first_phase (st_trace s)
              = Some (ReadMtgjson (data_path args) (include_online_only args))
              /\ exists o rest,
                   st_trace s
                   = session_setup
                     ++ (ReadMtgjson (data_path args)
                                     (include_online_only args), o) :: rest)).
  paths args; (split; [reflexivity | eexists; eexists; reflexivity]).
Qed.

(** C9.  On every path through [run_commands], whichever call raises,
    [session.close()] is called, once, and it is the last thing the run
    does; nothing staged in the session outlives it. *)
Theorem session_closed_on_every_path (args : Args) (e : env) (w : world) :
  (exists o, ends_with (trace_of (run_commands args) e w) [(Close, o)])
  /\ length (filter is_close (calls_of (run_commands args) e w)) = 1
  /\ st_working (snd (run (run_commands args) e w))
     = st_committed (snd (run (run_commands args) e w)).
Proof.
  unfold calls_of, trace_of.
  apply (wp_run (run_commands args) e w
           (fun _ s =>
              (exists o, ends_with (st_trace s) [(Close, o)])
              /\ length (filter is_close (map fst (st_trace s))) = 1
              /\ st_working s = st_committed s)).
  paths args;
    (split; [eexists; find_suffix | split; reflexivity]).
Qed.

(** C3.  If one of the three loads (catalog load, prior spreadsheet read,
    import read) raises, the run ends there: the only call that still
    follows is the [session.close()] of the [finally] clause, neither
    [write_xlsx] nor [write_csv] is called anywhere in the run, and
    [run_commands] ends with an exception. *)
Theorem failed_load_aborts_run (args : Args) (e : env) (w : world) (c : call) :
  is_load c = true ->
  In (c, Raised) (trace_of (run_commands args) e w) ->
  (exists o, ends_with (trace_of (run_commands args) e w)
                       [(c, Raised); (Close, o)])
  /\ existsb is_write (calls_of (run_commands args) e w) = false
  /\ exists x, fst (run (run_commands args) e w) = Exc x.
Proof.
  intros L. unfold calls_of, trace_of.
  apply (wp_run (run_commands args) e w
           (fun r s =>
              In (c, Raised) (st_trace s) ->
              (exists o, ends_with (st_trace s) [(c, Raised); (Close, o)])
              /\ existsb is_write (map fst (st_trace s)) = false
              /\ exists x, r = Exc x)).
  paths args; intros HIn; members; try discriminate L;
    (split; [eexists; find_suffix | split; [reflexivity | eexists; reflexivity]]).
Qed.

(** The import read of an [import] run raises: the run stops after the
    second commit, closes the session and writes nothing. *)
Lemma failed_load_aborts_run_witness :
  let args := sample_args (SubImport "csv" "in.csv") in
  let e := env_failing (ReadCsv "in.csv") in
  is_load (ReadCsv "in.csv") = true
  /\ In (ReadCsv "in.csv", Raised) (trace_of (run_commands args) e sample_world)
  /\ (exists o, ends_with (trace_of (run_commands args) e sample_world)
                          [(ReadCsv "in.csv", Raised); (Close, o)])
  /\ existsb is_write (calls_of (run_commands args) e sample_world) = false
  /\ exists x, fst (run (run_commands args) e sample_world) = Exc x.
Proof.
  cbv zeta.
  assert (L : is_load (ReadCsv "in.csv") = true) by reflexivity.
  assert (H : In (ReadCsv "in.csv", Raised)
                 (trace_of (run_commands (sample_args (SubImport "csv" "in.csv")))
                           (env_failing (ReadCsv "in.csv")) sample_world)).
  { vm_compute. repeat first [left; reflexivity | right]. }
  split; [exact L | split; [exact H |]].
  exact (failed_load_aborts_run _ _ _ _ L H).
Defined.

(** C6.  The write phase is reached when the third commit has returned.
    From there, [write_xlsx] is called, on the spreadsheet file, exactly
    when the operation is [create] or [update]; [write_csv] is called, on
    the export file, exactly when the operation is [export] with format
    ['csv']; and no [session.commit()] is called after a write. *)
Theorem write_phase_by_operation (args : Args) (e : env) (w : world) :
  returned_commits (trace_of (run_commands args) e w) = 3 ->
  (forall f, In (WriteXlsx f) (calls_of (run_commands args) e w)
             <-> f = spreadsheet_file args
                 /\ str_in (command args) ["create"; "update"] = true)
  /\ (forall f, In (WriteCsv f) (calls_of (run_commands args) e w)
                <-> subcmd args = SubExport "csv" f)
  /\ (forall pre c o post,
         trace_of (run_commands args) e w = pre ++ (c, o) :: post ->
         is_write c = true ->
         ~ In Commit (map fst post)).
Proof.
  unfold calls_of, trace_of.
  apply (wp_run (run_commands args) e w
           (fun _ s =>
              returned_commits (st_trace s) = 3 ->
              (forall f, In (WriteXlsx f) (map fst (st_trace s))
                         <-> f = spreadsheet_file args
                             /\ str_in (command args) ["create"; "update"] = true)
              /\ (forall f, In (WriteCsv f) (map fst (st_trace s))
                            <-> subcmd args = SubExport "csv" f)
              /\ (forall pre c o post,
                     st_trace s = pre ++ (c, o) :: post ->
                     is_write c = true ->
                     ~ In Commit (map fst post)))).
  paths args; intros N; try discriminate N;
    (split; [| split; [| apply no_commit_after_write_sound; reflexivity]]);
    intros f; cbn [map fst In]; split; intros Hf;
    repeat match goal with
           | H : _ \/ _ |- _ => destruct H as [H | H]
           | H : _ /\ _ |- _ => destruct H as [? H]
           | H : False |- _ => destruct H
           | H : String.eqb _ "csv" = true |- _ => apply csv_eqb in H; subst
           end;
    try discriminate; try congruence;
    try (inversion Hf; subst; clear Hf);
    try (split; reflexivity); try reflexivity;
    try (rewrite String.eqb_refl in *; discriminate);
    auto 12.
Qed.

(** An [export] run in which nothing raises reaches the write phase. *)
Lemma write_phase_by_operation_witness :
  let args := sample_args (SubExport "csv" "out.csv") in
  returned_commits (trace_of (run_commands args) env_ok sample_world) = 3
  /\ (forall f, In (WriteXlsx f) (calls_of (run_commands args) env_ok sample_world)
                <-> f = spreadsheet_file args
                    /\ str_in (command args) ["create"; "update"] = true)
  /\ (forall f, In (WriteCsv f) (calls_of (run_commands args) env_ok sample_world)
                <-> subcmd args = SubExport "csv" f)
  /\ (forall pre c o post,
         trace_of (run_commands args) env_ok sample_world = pre ++ (c, o) :: post ->
         is_write c = true ->
         ~ In Commit (map fst post)).
Proof.
  cbv zeta.
  assert (N : returned_commits
                (trace_of (run_commands (sample_args (SubExport "csv" "out.csv")))
                          env_ok sample_world) = 3) by (vm_compute; reflexivity).
  split; [exact N |].
  exact (write_phase_by_operation _ _ _ N).
Defined.

(** C5, as stated, fails: in an [update] run whose catalog load raises, the
    prior spreadsheet is not read although the operation is [update]. *)
Lemma prior_read_iff_update_export_counterexample :
  let args := sample_args SubUpdate in
  let e := env_failing (ReadMtgjson "/home/u/.mtgcdb" false) in
  ~ (In (ReadXlsx (spreadsheet_file args))
        (calls_of (run_commands args) e sample_world)
     <-> str_in (command args) ["update"; "export"] = true).
Proof.
  cbv zeta. intros [_ H].
  specialize (H eq_refl). vm_compute in H.
  members.
Qed.

(** C5, amended.  [read_xlsx] is called only in [update] and [export] runs,
    and only on the spreadsheet file: in [create] and [import] runs it is
    never called.  Once the commit of the catalog load has returned, it is
    called if and only if the operation is [update] or [export]. *)
Theorem prior_read_only_for_update_export (args : Args) (e : env) (w : world) :
  (forall f, In (ReadXlsx f) (calls_of (run_commands args) e w) ->
             f = spreadsheet_file args
             /\ str_in (command args) ["update"; "export"] = true)
  /\ (1 <= returned_commits (trace_of (run_commands args) e w) ->
      (In (ReadXlsx (spreadsheet_file args)) (calls_of (run_commands args) e w)
       <-> str_in (command args) ["update"; "export"] = true)).
Proof.
  unfold calls_of, trace_of.
  apply (wp_run (run_commands args) e w
           (fun _ s =>
              (forall f, In (ReadXlsx f) (map fst (st_trace s)) ->
                         f = spreadsheet_file args
                         /\ str_in (command args) ["update"; "export"] = true)
              /\ (1 <= returned_commits (st_trace s) ->
                  (In (ReadXlsx (spreadsheet_file args)) (map fst (st_trace s))
                   <-> str_in (command args) ["update"; "export"] = true)))).
  paths args;
    (split;
     [ intros f Hf; cbn [map fst] in Hf; members; split; reflexivity
     | cbn [returned_commits filter length map fst]; intros N; split; intros Hf;
       [ members; reflexivity
       | try discriminate Hf; try (inversion N; fail);
         cbn [In]; auto 12 ] ]).
Qed.

(** An [export] run in which nothing raises. *)
Lemma prior_read_only_for_update_export_witness :
  let args := sample_args (SubExport "csv" "out.csv") in
  1 <= returned_commits (trace_of (run_commands args) env_ok sample_world)
  /\ (In (ReadXlsx (spreadsheet_file args))
         (calls_of (run_commands args) env_ok sample_world)
      <-> str_in (command args) ["update"; "export"] = true).
Proof.
  cbv zeta.
  assert (N : 1 <= returned_commits
                     (trace_of (run_commands (sample_args (SubExport "csv" "out.csv")))
                               env_ok sample_world))
    by (vm_compute; repeat constructor).
  split; [exact N |].
  exact (proj2 (prior_read_only_for_update_export _ _ _) N).
Defined.

(** C7.  Every load that returns is followed at once by [session.commit()],
    and between a load and any phase that comes after it a commit has
    returned.  What an earlier phase committed is
    therefore what the engine holds when a later phase fails: if a later
    load (prior spreadsheet read or import read) raises after the catalog
    load was committed, the engine holds exactly the rows of the catalog
    load at the end of the run, and the session has dropped what the failed
    load staged; if a target write raises, the engine holds the rows of the
    committed loads (catalog, and prior spreadsheet for [update] and
    [export]). *)
Theorem committed_phases_survive_later_failure
        (args : Args) (e : env) (w : world) :
  (forall pre c post,
      trace_of (run_commands args) e w = pre ++ (c, Returned) :: post ->
      is_load c = true ->
      exists o post', post = (Commit, o) :: post')
  /\ (forall pre c o mid c' o' post,
         trace_of (run_commands args) e w
         = pre ++ (c, o) :: mid ++ (c', o') :: post ->
         is_load c = true -> is_phase c' = true ->
         In (Commit, Returned) mid)
  /\ (forall c,
         is_load c = true ->
         In (c, Raised) (trace_of (run_commands args) e w) ->
         1 <= returned_commits (trace_of (run_commands args) e w) ->
         st_committed (snd (run (run_commands args) e w)) = catalog_rows args e
         /\ st_working (snd (run (run_commands args) e w)) = catalog_rows args e)
  /\ (forall c,
         is_write c = true ->
         In (c, Raised) (trace_of (run_commands args) e w) ->
         st_committed (snd (run (run_commands args) e w))
         = if str_in (command args) ["update"; "export"]
           then prior_rows args e
           else catalog_rows args e).
Proof.
  unfold trace_of.
  apply (wp_run (run_commands args) e w
           (fun _ s =>
              (forall pre c post,
                  st_trace s = pre ++ (c, Returned) :: post ->
                  is_load c = true ->
                  exists o post', post = (Commit, o) :: post')
              /\ (forall pre c o mid c' o' post,
                     st_trace s = pre ++ (c, o) :: mid ++ (c', o') :: post ->
                     is_load c = true -> is_phase c' = true ->
                     In (Commit, Returned) mid)
              /\ (forall c,
                     is_load c = true ->
                     In (c, Raised) (st_trace s) ->
                     1 <= returned_commits (st_trace s) ->
                     st_committed s = catalog_rows args e
                     /\ st_working s = catalog_rows args e)
              /\ (forall c,
                     is_write c = true ->
                     In (c, Raised) (st_trace s) ->
                     st_committed s
                     = if str_in (command args) ["update"; "export"]
                       then prior_rows args e
                       else catalog_rows args e))).
  paths args;
    (split; [apply loads_committed_sound; reflexivity |]);
    (split; [apply loads_separated_sound; reflexivity | split]);
    intros c L HIn; members; try discriminate L;
    try (intros N; cbn in N; try (inversion N; fail));
    try (split; reflexivity); reflexivity.
Qed.

(** The import read raises after the catalog load was committed: the
    catalog rows are still there at the end of the run. *)
Lemma committed_phases_survive_later_failure_witness :
  let args := sample_args (SubImport "csv" "in.csv") in
  let e := env_failing (ReadCsv "in.csv") in
  (is_load (ReadCsv "in.csv") = true
   /\ In (ReadCsv "in.csv", Raised) (trace_of (run_commands args) e sample_world)
   /\ 1 <= returned_commits (trace_of (run_commands args) e sample_world))
  /\ st_committed (snd (run (run_commands args) e sample_world))
     = ["catalog:/home/u/.mtgcdb"].
Proof.
  cbv zeta.
  assert (L : is_load (ReadCsv "in.csv") = true) by reflexivity.
  assert (H : In (ReadCsv "in.csv", Raised)
                 (trace_of (run_commands (sample_args (SubImport "csv" "in.csv")))
                           (env_failing (ReadCsv "in.csv")) sample_world)).
  { vm_compute. repeat first [left; reflexivity | right]. }
  assert (N : 1 <= returned_commits
                     (trace_of (run_commands (sample_args (SubImport "csv" "in.csv")))
                               (env_failing (ReadCsv "in.csv")) sample_world))
    by (vm_compute; repeat constructor).
  split; [split; [exact L | split; [exact H | exact N]] |].
  exact (proj1 (proj1 (proj2 (proj2 (committed_phases_survive_later_failure _ _ _)))
                      _ L H N)).
Defined.

(** Following the script again along a path whose decisions are already in
    the context: the other branch of every case split is closed at once. *)
Ltac wp_follow := tidy; repeat (wp_step; try congruence).

(** C8.  Every run of [run_commands] begins by creating an engine on
    ['sqlite://'], the in-memory database, and a session on it, before any
    phase; the store is empty then (until a commit returns it holds no
    row, and after the first commit exactly what the catalog load made of
    the empty store).  The run leaves no database behind in the outside
    world, and nothing it computes depends on what databases the world
    held before: rows reach the next invocation only through the files the
    adapters write. *)
Theorem store_is_ephemeral (args : Args) (e : env) (w : world) :
  (exists rest, trace_of (run_commands args) e w = session_setup ++ rest)
  /\ st_engine (snd (run (run_commands args) e w)) = Some InMemory
  /\ (returned_commits (trace_of (run_commands args) e w) = 0 ->
      st_committed (snd (run (run_commands args) e w)) = [])
  /\ (returned_commits (trace_of (run_commands args) e w) = 1 ->
      st_committed (snd (run (run_commands args) e w)) = catalog_rows args e)
  /\ w_dbs (st_world (snd (run (run_commands args) e w))) = w_dbs w
  /\ (forall w',
         fst (run (run_commands args) e w') = fst (run (run_commands args) e w)
         /\ trace_of (run_commands args) e w' = trace_of (run_commands args) e w
         /\ st_committed (snd (run (run_commands args) e w'))
            = st_committed (snd (run (run_commands args) e w))).
Proof.
  unfold trace_of.
  apply (wp_run (run_commands args) e w
           (fun r s =>
              (exists rest, st_trace s = session_setup ++ rest)
              /\ st_engine s = Some InMemory
              /\ (returned_commits (st_trace s) = 0 -> st_committed s = [])
              /\ (returned_commits (st_trace s) = 1 ->
                  st_committed s = catalog_rows args e)
              /\ w_dbs (st_world s) = w_dbs w
              /\ (forall w',
                     fst (run (run_commands args) e w') = r
                     /\ st_trace (snd (run (run_commands args) e w')) = st_trace s
                     /\ st_committed (snd (run (run_commands args) e w'))
                        = st_committed s))).
  paths args;
    (split; [eexists; reflexivity |]);
    (split; [reflexivity |]);
    (split; [intros N; first [discriminate N | reflexivity] |]);
    (split; [intros N; first [discriminate N | reflexivity] |]);
    (split; [reflexivity |]);
    intros w';
    match goal with
    | |- fst (run ?m e w') = ?r /\ st_trace _ = ?t /\ st_committed _ = ?d =>
        apply (wp_run m e w'
                 (fun r' s' => r' = r /\ st_trace s' = t /\ st_committed s' = d))
    end;
    unfold run_commands; wp_follow; repeat split; reflexivity.
Qed.

(** A [create] run whose first commit raises, and one whose second commit
    raises. *)
Lemma store_is_ephemeral_witness :
  let args := sample_args SubCreate in
  let e1 := env_failing Commit in
  let e2 := mkEnv (fun h c => call_eqb c Commit && Nat.eqb (length h) 5) staging
                  parent_of (fun _ => true) in
  (returned_commits (trace_of (run_commands args) e1 sample_world) = 0
   /\ st_committed (snd (run (run_commands args) e1 sample_world)) = [])
  /\ (returned_commits (trace_of (run_commands args) e2 sample_world) = 1
      /\ st_committed (snd (run (run_commands args) e2 sample_world))
         = ["catalog:/home/u/.mtgcdb"]).
Proof.
  cbv zeta. split.
  - assert (N : returned_commits
                  (trace_of (run_commands (sample_args SubCreate))
                            (env_failing Commit) sample_world) = 0)
      by (vm_compute; reflexivity).
    split; [exact N |].
    exact (proj1 (proj2 (proj2 (store_is_ephemeral _ _ _))) N).
  - assert (N : returned_commits
                  (trace_of (run_commands (sample_args SubCreate))
                            (mkEnv (fun h c => call_eqb c Commit
                                               && Nat.eqb (length h) 5) staging
                                   parent_of (fun _ => true))
                            sample_world) = 1)
      by (vm_compute; reflexivity).
    split; [exact N |].
    exact (proj1 (proj2 (proj2 (proj2 (store_is_ephemeral _ _ _)))) N).
Defined.

(** For contrast: on a database that outlives the process, a committed row
    is there for the next invocation.  The store of [run_commands] is
    ephemeral because of the URL it passes to [create_engine]. *)
Example on_disk_engine_keeps_rows :
  w_dbs (st_world (snd (run (g <- create_engine "sqlite:///old.db" ;;
                             sessionmaker g ;;
                             session_factory ;;
                             invoke (ReadCsv "in.csv") ;;
                             invoke Commit)
                            env_ok sample_world)))
        "sqlite:///old.db"
  = ["stale row"; "csv:in.csv"].
Proof. reflexivity. Qed.

(** C10, as stated, fails: nothing keeps the export file apart from the
    spreadsheet file.  In an [export] run whose export file is the
    spreadsheet's own path, [write_csv] replaces the spreadsheet. *)
Lemma export_leaves_spreadsheet_counterexample :
  let args := mkArgs "/home/u/.mtgcdb" false false "coll.xlsx"
                     (SubExport "csv" "coll.xlsx") in
  command args = "export"
  /\ fst (run (run_commands args) env_ok sample_world) = Ok tt
  /\ In (WriteCsv (spreadsheet_file args))
        (calls_of (run_commands args) env_ok sample_world)
  /\ existsb (writes_file sample_world (spreadsheet_file args))
             (calls_of (run_commands args) env_ok sample_world) = true.
Proof.
  cbv zeta. repeat split; try reflexivity.
  vm_compute. repeat first [left; reflexivity | right].
Qed.

(** C10, amended.  No path of an [export] run calls [write_xlsx]; the only
    write such a run can make is [write_csv] on the export file.  So no
    call of an [export] run writes the spreadsheet file, whether the run
    succeeds or fails, provided the export file is not the spreadsheet file
    itself: not the same path, nor another path that names the same file. *)
Theorem export_writes_only_export_file
        (dp : string) (online dbg : bool) (sf fmt ef : string)
        (e : env) (w : world) :
  (forall f, ~ In (WriteXlsx f)
                  (calls_of (run_commands (mkArgs dp online dbg sf (SubExport fmt ef))) e w))
  /\ (forall c, In c (calls_of (run_commands (mkArgs dp online dbg sf (SubExport fmt ef))) e w) ->
                is_write c = true -> c = WriteCsv ef)
  /\ (w_real w ef <> w_real w sf ->
      existsb (writes_file w sf)
              (calls_of (run_commands (mkArgs dp online dbg sf (SubExport fmt ef))) e w)
      = false).
Proof.
  unfold calls_of, trace_of.
  apply (wp_run (run_commands (mkArgs dp online dbg sf (SubExport fmt ef))) e w
           (fun _ s =>
              (forall f, ~ In (WriteXlsx f) (map fst (st_trace s)))
              /\ (forall c, In c (map fst (st_trace s)) ->
                            is_write c = true -> c = WriteCsv ef)
              /\ (w_real w ef <> w_real w sf ->
                  existsb (writes_file w sf) (map fst (st_trace s)) = false))).
  unfold run_commands; wp_steps;
    (split; [intros f Hf; cbn [map fst] in Hf; members | split]).
  all: try (intros c Hc W; cbn [map fst] in Hc; members;
            first [discriminate W | reflexivity]).
  all: intros D; cbn [map fst existsb writes_file write_target orb];
    try reflexivity.
  all: destruct (String.eqb (w_real w ef) (w_real w sf)) eqn:E;
    [apply String.eqb_eq in E; contradiction | reflexivity].
Qed.

(** An [export] run to a file of its own. *)
Lemma export_writes_only_export_file_witness :
  w_real sample_world "out.csv" <> w_real sample_world "coll.xlsx"
  /\ existsb (writes_file sample_world "coll.xlsx")
             (calls_of (run_commands
                          (mkArgs "/home/u/.mtgcdb" false false "coll.xlsx"
                                  (SubExport "csv" "out.csv")))
                       env_ok sample_world)
     = false.
Proof.
  assert (D : w_real sample_world "out.csv" <> w_real sample_world "coll.xlsx")
    by discriminate.
  split; [exact D |].
  exact (proj2 (proj2 (export_writes_only_export_file
                         "/home/u/.mtgcdb" false false "coll.xlsx" "csv" "out.csv"
                         env_ok sample_world)) D).
Defined.

(** Another name of the spreadsheet is the spreadsheet: an export to
    ['./coll.xlsx'] writes the file ['coll.xlsx'] names. *)
Example export_to_another_name_of_the_spreadsheet :
  existsb (writes_file sample_world "coll.xlsx")
          (calls_of (run_commands
                       (mkArgs "/home/u/.mtgcdb" false false "coll.xlsx"
                               (SubExport "csv" "./coll.xlsx")))
                    env_ok sample_world)
  = true.
Proof. reflexivity. Qed.

(** The calls an [import] run can make, whatever the helpers do: the
    session set-up, the catalog load, the import read, commits and the
    close.  Nothing is copied and nothing is written. *)
Lemma import_run_calls
      (dp : string) (online dbg : bool) (sf fmt f : string)
      (e : env) (w : world) :
  Forall (fun c => In c [CreateEngine "sqlite://"; SessionMaker; NewSession;
                         ReadMtgjson dp online; ReadCsv f; Commit; Close])
         (calls_of (run_commands (mkArgs dp online dbg sf (SubImport fmt f))) e w).
Proof.
  unfold calls_of, trace_of.
  apply (wp_run (run_commands (mkArgs dp online dbg sf (SubImport fmt f))) e w
           (fun _ s =>
              Forall (fun c => In c [CreateEngine "sqlite://"; SessionMaker;
                                     NewSession; ReadMtgjson dp online;
                                     ReadCsv f; Commit; Close])
                     (map fst (st_trace s)))).
  unfold run_commands; wp_steps; cbn [map fst];
    repeat (constructor; [cbn [In]; auto 10 |]); constructor.
Qed.

(** C1: the code does not do what the claim (and the help text of the
    [import] sub-command) says.  An [import] run in which nothing fails
    loads the catalog, reads the import file into the session, commits and
    closes: the spreadsheet is neither copied nor written. *)
Theorem import_run_makes_no_backup_and_no_write :
  let args := mkArgs "/home/u/.mtgcdb" false false "coll.xlsx"
                     (SubImport "csv" "in.csv") in
  run (run_commands args) env_ok sample_world
  = (Ok tt,
     mkState [(CreateEngine "sqlite://", Returned); (SessionMaker, Returned);
              (NewSession, Returned);
              (ReadMtgjson "/home/u/.mtgcdb" false, Returned);
              (Commit, Returned); (Commit, Returned);
              (ReadCsv "in.csv", Returned); (Commit, Returned);
              (Close, Returned)]
             sample_world (Some InMemory)
             ["catalog:/home/u/.mtgcdb"; "csv:in.csv"]
             ["catalog:/home/u/.mtgcdb"; "csv:in.csv"])
  /\ existsb is_write (calls_of (run_commands args) env_ok sample_world) = false.
Proof. split; reflexivity. Qed.

(** ** Properties of [main] *)

(** C2, as stated, fails for a missing data path: [main] creates the folder
    and goes on.  Here nothing raises, and the run creates a session, loads
    the catalog from the new folder and ends without an error. *)
Lemma missing_data_path_aborts_counterexample :
  let args := mkArgs "/nope" false false "coll.xlsx" SubCreate in
  w_node sample_world (data_path args) = Absent
  /\ fst (run (main args) env_ok sample_world) = Ok tt
  /\ existsb is_session_call (calls_of (main args) env_ok sample_world) = true
  /\ calls_of (main args) env_ok sample_world
     = [MakeDirs "/nope"; CreateEngine "sqlite://"; SessionMaker; NewSession;
        ReadMtgjson "/nope" false; Commit; Commit; Commit;
        WriteXlsx "coll.xlsx"; Close].
Proof. cbv zeta. repeat split; reflexivity. Qed.

(** C2, amended.  When the data path exists and is not a folder, [main]
    raises before it calls anything: no engine, no session, no phase.  When
    the data path is missing, [main] first calls [os.makedirs] on it; if
    that raises the run ends there, and if it returns (and the profiler,
    when asked for, starts) the run goes on into [run_commands] and loads
    the catalog from the new folder. *)
Theorem data_path_must_be_a_folder (args : Args) (e : env) (w : world) :
  (w_node w (data_path args) = File ->
   fst (run (main args) e w)
   = Exc (Exception ("data_path: " ++ data_path args ++ " must be a folder"))
   /\ trace_of (main args) e w = [])
  /\ (w_node w (data_path args) = Absent ->
      exists o rest,
        trace_of (main args) e w = (MakeDirs (data_path args), o) :: rest
        /\ (o = Raised ->
            rest = []
            /\ fst (run (main args) e w)
               = Exc (CallFailed (MakeDirs (data_path args))))
        /\ (o = Returned ->
            ~ In (ProfilingStart, Raised) rest ->
            In (ReadMtgjson (data_path args) (include_online_only args))
               (map fst rest))).
Proof.
  split; intros N; unfold trace_of.
  - apply (wp_run (main args) e w
             (fun r s =>
                r = Exc (Exception ("data_path: " ++ data_path args
                                                  ++ " must be a folder"))
                /\ st_trace s = [])).
    destruct args as [dp online dbg sf sc]; unfold main; cbn in N.
    tidy. apply wp_bind, wp_path_exists. tidy. rewrite N.
    wp_steps. rewrite N. wp_steps. split; reflexivity.
  - apply (wp_run (main args) e w
             (fun r s =>
                exists o rest,
                  st_trace s = (MakeDirs (data_path args), o) :: rest
                  /\ (o = Raised ->
                      rest = [] /\ r = Exc (CallFailed (MakeDirs (data_path args))))
                  /\ (o = Returned ->
                      ~ In (ProfilingStart, Raised) rest ->
                      In (ReadMtgjson (data_path args) (include_online_only args))
                         (map fst rest)))).
    destruct args as [dp online [|] sf [| | ? ? | ? ?]]; unfold main; cbn in N;
      tidy; apply wp_bind, wp_path_exists; tidy; rewrite N;
      unfold run_commands; wp_steps;
      (eexists; eexists; split; [reflexivity | split]);
      intros O; try discriminate O;
      try (split; reflexivity);
      intros P; cbn [map fst In];
      first [ solve [auto 12] | solve [exfalso; apply P; cbn [In]; auto 12] ].
Qed.

(** A plain file where the data folder should be, and a missing path. *)
Lemma data_path_must_be_a_folder_witness :
  let a1 := mkArgs "/home/u/notes.txt" false false "coll.xlsx" SubCreate in
  let a2 := mkArgs "/nope" false false "coll.xlsx" SubCreate in
  (w_node sample_world (data_path a1) = File
   /\ trace_of (main a1) env_ok sample_world = [])
  /\ (w_node sample_world (data_path a2) = Absent
      /\ exists o rest,
           trace_of (main a2) env_ok sample_world
           = (MakeDirs (data_path a2), o) :: rest).
Proof.
  cbv zeta. split.
  - assert (N : w_node sample_world "/home/u/notes.txt" = File) by reflexivity.
    split; [exact N |].
    exact (proj2 (proj1 (data_path_must_be_a_folder
                           (mkArgs "/home/u/notes.txt" false false "coll.xlsx"
                                   SubCreate)
                           env_ok sample_world) N)).
  - assert (N : w_node sample_world "/nope" = Absent) by reflexivity.
    split; [exact N |].
    destruct (proj2 (data_path_must_be_a_folder
                       (mkArgs "/nope" false false "coll.xlsx" SubCreate)
                       env_ok sample_world) N) as (o & rest & H & _).
    exists o, rest. exact H.
Defined.

(** ** More on [run_commands] *)

(** [run_commands] handles no exception itself.  It returns normally exactly
    when none of its calls raised; otherwise it ends with the exception of
    the last call that raised: the one of the failing phase or commit, or,
    when [session.close()] raises in the [finally] clause, that one in its
    place.  In particular no attribute of the namespace is read on a
    sub-command that does not define it. *)
Theorem run_commands_outcome (args : Args) (e : env) (w : world) :
  fst (run (run_commands args) e w)
  = outcome_of (trace_of (run_commands args) e w).
Proof.
  unfold trace_of.
  apply (wp_run (run_commands args) e w
           (fun r s => r = outcome_of (st_trace s))).
  paths args; reflexivity.
Qed.

(** No phase is repeated: in every run the catalog is loaded exactly once,
    there is at most one more load, at most one target write, and at most
    three commits; the three commits are all called when nothing raises. *)
Theorem phases_run_at_most_once (args : Args) (e : env) (w : world) :
  length (filter is_catalog_load (calls_of (run_commands args) e w)) = 1
  /\ length (filter is_load (calls_of (run_commands args) e w)) <= 2
  /\ length (filter is_write (calls_of (run_commands args) e w)) <= 1
  /\ length (filter is_commit (calls_of (run_commands args) e w)) <= 3
  /\ (last_raised (trace_of (run_commands args) e w) = None ->
      returned_commits (trace_of (run_commands args) e w) = 3).
Proof.
  unfold calls_of, trace_of.
  apply (wp_run (run_commands args) e w
           (fun _ s =>
              length (filter is_catalog_load (map fst (st_trace s))) = 1
              /\ length (filter is_load (map fst (st_trace s))) <= 2
              /\ length (filter is_write (map fst (st_trace s))) <= 1
              /\ length (filter is_commit (map fst (st_trace s))) <= 3
              /\ (last_raised (st_trace s) = None ->
                  returned_commits (st_trace s) = 3))).
  paths args; cbn;
    (split; [reflexivity |]);
    (split; [repeat constructor |]);
    (split; [repeat constructor |]);
    (split; [repeat constructor |]);
    intros N; first [discriminate N | reflexivity].
Qed.

(** An [update] run in which nothing raises. *)
Lemma phases_run_at_most_once_witness :
  last_raised (trace_of (run_commands (sample_args SubUpdate)) env_ok sample_world)
  = None
  /\ returned_commits
       (trace_of (run_commands (sample_args SubUpdate)) env_ok sample_world) = 3.
Proof.
  assert (N : last_raised
                (trace_of (run_commands (sample_args SubUpdate)) env_ok sample_world)
              = None) by (vm_compute; reflexivity).
  split; [exact N |].
  exact (proj2 (proj2 (proj2 (proj2 (phases_run_at_most_once _ _ _)))) N).
Defined.

(** A format other than ['csv'] is ignored without a word: an [export] run
    then writes nothing at all and an [import] run reads no import file (its
    only phase is the catalog load), and neither run fails on that account:
    it returns normally unless one of its calls raises. *)
Theorem unknown_format_is_ignored
        (dp : string) (online dbg : bool) (sf fmt f : string)
        (e : env) (w : world) :
  fmt <> "csv" ->
  (filter is_write
          (calls_of (run_commands (mkArgs dp online dbg sf (SubExport fmt f))) e w)
   = []
   /\ (last_raised
         (trace_of (run_commands (mkArgs dp online dbg sf (SubExport fmt f))) e w)
       = None ->
       fst (run (run_commands (mkArgs dp online dbg sf (SubExport fmt f))) e w)
       = Ok tt))
  /\ (filter is_phase
             (calls_of (run_commands (mkArgs dp online dbg sf (SubImport fmt f))) e w)
      = [ReadMtgjson dp online]
      /\ (last_raised
            (trace_of (run_commands (mkArgs dp online dbg sf (SubImport fmt f))) e w)
          = None ->
          fst (run (run_commands (mkArgs dp online dbg sf (SubImport fmt f))) e w)
          = Ok tt)).
Proof.
  intros D. unfold calls_of, trace_of. split.
  - apply (wp_run (run_commands (mkArgs dp online dbg sf (SubExport fmt f))) e w
             (fun r s =>
                filter is_write (map fst (st_trace s)) = []
                /\ (last_raised (st_trace s) = None -> r = Ok tt))).
    unfold run_commands; wp_steps;
      try match goal with
          | H : String.eqb fmt "csv" = true |- _ =>
              apply csv_eqb in H; contradiction
          end;
      (split; [reflexivity | intros N; first [discriminate N | reflexivity]]).
  - apply (wp_run (run_commands (mkArgs dp online dbg sf (SubImport fmt f))) e w
             (fun r s =>
                filter is_phase (map fst (st_trace s)) = [ReadMtgjson dp online]
                /\ (last_raised (st_trace s) = None -> r = Ok tt))).
    unfold run_commands; wp_steps;
      try match goal with
          | H : String.eqb fmt "csv" = true |- _ =>
              apply csv_eqb in H; contradiction
          end;
      (split; [reflexivity | intros N; first [discriminate N | reflexivity]]).
Qed.

(** An export asked for in a format the script does not know. *)
Lemma unknown_format_is_ignored_witness :
  "tsv" <> "csv"
  /\ filter is_write
            (calls_of (run_commands (mkArgs "/home/u/.mtgcdb" false false "coll.xlsx"
                                            (SubExport "tsv" "out.tsv")))
                      env_ok sample_world)
     = [].
Proof.
  assert (D : "tsv" <> "csv") by discriminate.
  split; [exact D |].
  exact (proj1 (proj1 (unknown_format_is_ignored
                         "/home/u/.mtgcdb" false false "coll.xlsx" "tsv" "out.tsv"
                         env_ok sample_world D))).
Defined.

(** [read_csv] is called only in [import] runs with format ['csv'], and only
    on the import file.  Once the second commit has returned (the point where
    the import read is decided) it is called exactly in those runs. *)
Theorem import_read_only_for_import_csv (args : Args) (e : env) (w : world) :
  (forall f, In (ReadCsv f) (calls_of (run_commands args) e w) ->
             subcmd args = SubImport "csv" f)
  /\ (2 <= returned_commits (trace_of (run_commands args) e w) ->
      forall f, subcmd args = SubImport "csv" f ->
                In (ReadCsv f) (calls_of (run_commands args) e w)).
Proof.
  unfold calls_of, trace_of.
  apply (wp_run (run_commands args) e w
           (fun _ s =>
              (forall f, In (ReadCsv f) (map fst (st_trace s)) ->
                         subcmd args = SubImport "csv" f)
              /\ (2 <= returned_commits (st_trace s) ->
                  forall f, subcmd args = SubImport "csv" f ->
                            In (ReadCsv f) (map fst (st_trace s))))).
  paths args;
    (split;
     [ intros f Hf; cbn [map fst] in Hf; members;
       repeat match goal with
              | H : String.eqb _ "csv" = true |- _ => apply csv_eqb in H; subst
              end; reflexivity
     | cbn [returned_commits filter length map fst]; intros N f Hf;
       try discriminate Hf;
       try (inversion N as [| ? N']; inversion N'; fail);
       try (inversion Hf; subst; clear Hf);
       try (rewrite String.eqb_refl in *; discriminate);
       cbn [In]; auto 12 ]).
Qed.

(** An [import] run in which nothing raises. *)
Lemma import_read_only_for_import_csv_witness :
  2 <= returned_commits
         (trace_of (run_commands (sample_args (SubImport "csv" "in.csv")))
                   env_ok sample_world)
  /\ In (ReadCsv "in.csv")
        (calls_of (run_commands (sample_args (SubImport "csv" "in.csv")))
                  env_ok sample_world).
Proof.
  assert (N : 2 <= returned_commits
                     (trace_of (run_commands (sample_args (SubImport "csv" "in.csv")))
                               env_ok sample_world))
    by (vm_compute; repeat constructor).
  split; [exact N |].
  exact (proj2 (import_read_only_for_import_csv _ _ _) N "in.csv" eq_refl).
Defined.

(** Once the three commits have returned, the engine holds the rows of the
    loads of the operation, built on the catalog rows: the catalog alone for
    [create], what [read_xlsx] made of it for [update] and [export], what
    [read_csv] made of it for [import] (the prior spreadsheet has no part in
    an import).  Whatever a target write stages in the session is not
    committed, whether the write returns or raises. *)
Theorem store_after_loads (args : Args) (e : env) (w : world) :
  returned_commits (trace_of (run_commands args) e w) = 3 ->
  st_committed (snd (run (run_commands args) e w)) = loaded_rows args e
  /\ st_working (snd (run (run_commands args) e w)) = loaded_rows args e.
Proof.
  unfold trace_of.
  apply (wp_run (run_commands args) e w
           (fun _ s =>
              returned_commits (st_trace s) = 3 ->
              st_committed s = loaded_rows args e
              /\ st_working s = loaded_rows args e)).
  paths args; intros N; try discriminate N;
    unfold loaded_rows, import_rows, prior_rows, catalog_rows; tidy;
    try match goal with
        | H : String.eqb _ "csv" = _ |- _ => rewrite H
        end;
    split; reflexivity.
Qed.

(** An [import] run in which nothing raises: the rows of the catalog and of
    the import file, and none of the spreadsheet. *)
Lemma store_after_loads_witness :
  returned_commits
    (trace_of (run_commands (sample_args (SubImport "csv" "in.csv")))
              env_ok sample_world) = 3
  /\ st_committed (snd (run (run_commands (sample_args (SubImport "csv" "in.csv")))
                            env_ok sample_world))
     = ["catalog:/home/u/.mtgcdb"; "csv:in.csv"].
Proof.
  assert (N : returned_commits
                (trace_of (run_commands (sample_args (SubImport "csv" "in.csv")))
                          env_ok sample_world) = 3)
    by (vm_compute; reflexivity).
  split; [exact N |].
  exact (proj1 (store_after_loads _ _ _ N)).
Defined.

(** ** More on [main] *)

(** All the paths of [main]: the profiler switch, the four operations, the
    three things the data path can be, and every path of [run_commands]. *)
Ltac main_paths args w :=
  destruct args as [? ? [|] ? [| | ? ? | ? ?]];
  unfold main, run_commands; tidy;
  match goal with
  | |- context [path_exists ?p] =>
      let N := fresh "N" in destruct (w_node w p) eqn:N
  end;
  repeat progress
         (wp_steps;
          try match goal with
              | N : w_node w _ = _ |- _ => rewrite N
              end).

(** [main] handles no exception either.  On a data path that is a plain
    file it raises its own exception; otherwise it returns normally exactly
    when none of its calls raised, and else ends with the exception of the
    last call that raised: an error of [run_commands] is passed on unless
    [profiling.finish] raises after it. *)
Theorem main_outcome (args : Args) (e : env) (w : world) :
  fst (run (main args) e w)
  = match w_node w (data_path args) with
    | File => Exc (Exception ("data_path: " ++ data_path args ++ " must be a folder"))
    | _ => outcome_of (trace_of (main args) e w)
    end.
Proof.
  unfold trace_of.
  apply (wp_run (main args) e w
           (fun r s =>
              r = match w_node w (data_path args) with
                  | File => Exc (Exception ("data_path: " ++ data_path args
                                                          ++ " must be a folder"))
                  | _ => outcome_of (st_trace s)
                  end)).
  main_paths args w; reflexivity.
Qed.

Lemma try_finally_ret {A} (m : M A) (e : env) (s : state) :
  try_finally m (ret tt) e s = m e s.
Proof.
  unfold try_finally; cbn; unfold M_ret. destruct (m e s); reflexivity.
Qed.

(** With the data folder in place and no [--debug_stats], [main] is
    [run_commands]: the same calls, the same result, the same state. *)
Theorem main_is_run_commands (args : Args) (e : env) (w : world) :
  w_node w (data_path args) = Folder ->
  debug_stats args = false ->
  run (main args) e w = run (run_commands args) e w.
Proof.
  intros N D. unfold run, main. rewrite D.
  generalize (run_commands args) as m; intros m.
  cbn; unfold M_bind, path_exists, path_isdir; cbn. rewrite N; cbn.
  unfold M_bind, path_isdir; cbn. rewrite N; cbn.
  unfold M_bind, M_ret; cbn.
  apply (try_finally_ret m e (boot w)).
Qed.

Lemma main_is_run_commands_witness :
  (w_node sample_world (data_path (sample_args SubUpdate)) = Folder
   /\ debug_stats (sample_args SubUpdate) = false)
  /\ run (main (sample_args SubUpdate)) env_ok sample_world
     = run (run_commands (sample_args SubUpdate)) env_ok sample_world.
Proof.
  assert (N : w_node sample_world (data_path (sample_args SubUpdate)) = Folder)
    by reflexivity.
  assert (D : debug_stats (sample_args SubUpdate) = false) by reflexivity.
  split; [split; [exact N | exact D] |].
  exact (main_is_run_commands (sample_args SubUpdate) env_ok sample_world N D).
Defined.

(** The catalog is only ever loaded from a folder: whenever a run of [main]
    calls [read_mtgjson], it is on [args.data_path] with the
    [--include_online_only] switch as given, and that path is a folder,
    found there or created by [main] just before. *)
Theorem catalog_loaded_from_a_folder
        (args : Args) (e : env) (w : world) (p : string) (o : bool) :
  In (ReadMtgjson p o) (calls_of (main args) e w) ->
  p = data_path args
  /\ o = include_online_only args
  /\ w_node (st_world (snd (run (main args) e w))) p = Folder.
Proof.
  unfold calls_of, trace_of.
  apply (wp_run (main args) e w
           (fun _ s =>
              In (ReadMtgjson p o) (map fst (st_trace s)) ->
              p = data_path args
              /\ o = include_online_only args
              /\ w_node (st_world s) p = Folder)).
  main_paths args w; intros HIn; cbn [map fst] in HIn; members;
    (split; [reflexivity | split; [reflexivity |]]);
    first [ assumption
          | cbn [w_node make_dirs]; rewrite String.eqb_refl; reflexivity ].
Qed.

(** A run on a data path that does not exist yet. *)
Lemma catalog_loaded_from_a_folder_witness :
  let args := mkArgs "/nope" false false "coll.xlsx" SubCreate in
  In (ReadMtgjson "/nope" false) (calls_of (main args) env_ok sample_world)
  /\ w_node sample_world "/nope" = Absent
  /\ w_node (st_world (snd (run (main args) env_ok sample_world))) "/nope" = Folder.
Proof.
  cbv zeta.
  assert (H : In (ReadMtgjson "/nope" false)
                 (calls_of (main (mkArgs "/nope" false false "coll.xlsx" SubCreate))
                           env_ok sample_world)).
  { vm_compute. repeat first [left; reflexivity | right]. }
  split; [exact H | split; [reflexivity |]].
  exact (proj2 (proj2 (catalog_loaded_from_a_folder _ _ _ _ _ H))).
Defined.

Lemma makedirs_first_sound (t : list event) :
  makedirs_first (map fst t) = true ->
  forall pre c o post,
    t = pre ++ (c, o) :: post -> is_makedirs c = true -> pre = [].
Proof.
  intros H [| ev pre] c o post -> Hc; [reflexivity | exfalso].
  cbn in H. apply negb_true_iff in H.
  assert (existsb is_makedirs (map fst (pre ++ (c, o) :: post)) = true) as E.
  { apply existsb_exists. exists c. split; [| exact Hc].
    rewrite map_app. apply in_or_app. right. left. reflexivity. }
  congruence.
Qed.

(** [main] creates the data folder only when nothing is there:
    [os.makedirs] is called exactly when the data path is absent, on that
    path, as the first call of the run and only once. *)
Theorem data_folder_created_only_when_absent
        (args : Args) (e : env) (w : world) :
  (forall p, In (MakeDirs p) (calls_of (main args) e w)
             <-> p = data_path args /\ w_node w (data_path args) = Absent)
  /\ length (filter is_makedirs (calls_of (main args) e w)) <= 1
  /\ (forall pre c o post,
         trace_of (main args) e w = pre ++ (c, o) :: post ->
         is_makedirs c = true -> pre = []).
Proof.
  unfold calls_of, trace_of.
  apply (wp_run (main args) e w
           (fun _ s =>
              (forall p, In (MakeDirs p) (map fst (st_trace s))
                         <-> p = data_path args
                             /\ w_node w (data_path args) = Absent)
              /\ length (filter is_makedirs (map fst (st_trace s))) <= 1
              /\ (forall pre c o post,
                     st_trace s = pre ++ (c, o) :: post ->
                     is_makedirs c = true -> pre = []))).
  main_paths args w;
    (split;
     [ intros p; cbn [map fst]; split;
       [ intros HIn; members; split; first [reflexivity | assumption]
       | intros [-> HN]; first [ congruence | cbn [In]; auto ] ]
     | split;
       [ cbn; repeat constructor
       | apply makedirs_first_sound; reflexivity ] ]).
Qed.

(** A run on a data path that does not exist yet begins by creating it. *)
Lemma data_folder_created_only_when_absent_witness :
  let args := mkArgs "/nope/sub" false false "coll.xlsx" SubCreate in
  ("/nope/sub" = data_path args /\ w_node sample_world (data_path args) = Absent)
  /\ In (MakeDirs "/nope/sub") (calls_of (main args) env_ok sample_world).
Proof.
  cbv zeta.
  assert (H : "/nope/sub"
              = data_path (mkArgs "/nope/sub" false false "coll.xlsx" SubCreate)
              /\ w_node sample_world
                        (data_path (mkArgs "/nope/sub" false false "coll.xlsx"
                                           SubCreate))
                 = Absent)
    by (split; reflexivity).
  split; [exact H |].
  exact (proj2 (proj1 (data_folder_created_only_when_absent
                         (mkArgs "/nope/sub" false false "coll.xlsx" SubCreate)
                         env_ok sample_world) "/nope/sub") H).
Defined.

(** [os.makedirs] makes the missing parents too: after a run on
    ['/nope/sub'], ['/nope'] is a folder. *)
Example data_folder_parents_are_created :
  let args := mkArgs "/nope/sub" false false "coll.xlsx" SubCreate in
  w_node sample_world "/nope" = Absent
  /\ w_node (st_world (snd (run (main args) env_ok sample_world))) "/nope" = Folder
  /\ w_node (st_world (snd (run (main args) env_ok sample_world))) "/nope/sub"
     = Folder.
Proof. cbv zeta. repeat split; reflexivity. Qed.

(** With the calls before [profiling.start] chosen: the rest of the record,
    and what follows from the value the start returned. *)
Ltac bracket :=
  eexists; split; [reflexivity | split; [reflexivity | split]];
  intros G;
  first [ match goal with
          | H : gives_profiler _ _ = _ |- _ =>
              discriminate (eq_trans (eq_sym H) G)
          end
        | split; [eexists; find_suffix | reflexivity]
        | reflexivity ].

(** The profiler brackets [run_commands].  Without [--debug_stats] no
    profiling call is made.  [profiling.start] is called after the data
    path is dealt with and right before the engine is created; if it raises,
    nothing else is called.  If it returns a profiler, [profiling.finish]
    is called exactly once, as the last call of the run, whatever
    [run_commands] did; if it returns [None], [profiling.finish] is not
    called.  [profiling.finish] is never called without a start that
    returned. *)
Theorem profiler_brackets_run (args : Args) (e : env) (w : world) :
  (debug_stats args = false ->
   filter is_profiling (calls_of (main args) e w) = [])
  /\ (In (ProfilingStart, Raised) (trace_of (main args) e w) ->
      ends_with (trace_of (main args) e w) [(ProfilingStart, Raised)]
      /\ ~ In (CreateEngine "sqlite://") (calls_of (main args) e w))
  /\ (In (ProfilingStart, Returned) (trace_of (main args) e w) ->
      exists pre rest,
        trace_of (main args) e w
        = pre ++ (ProfilingStart, Returned) :: session_setup ++ rest
        /\ forallb is_makedirs (map fst pre) = true
        /\ (gives_profiler e pre = true ->
            (exists o, ends_with (trace_of (main args) e w)
                                 [(ProfilingFinish, o)])
            /\ filter is_profiling (calls_of (main args) e w)
               = [ProfilingStart; ProfilingFinish])
        /\ (gives_profiler e pre = false ->
            filter is_profiling (calls_of (main args) e w) = [ProfilingStart]))
  /\ (In ProfilingFinish (calls_of (main args) e w) ->
      In (ProfilingStart, Returned) (trace_of (main args) e w)).
Proof.
  unfold calls_of, trace_of.
  apply (wp_run (main args) e w
           (fun _ s =>
              (debug_stats args = false ->
               filter is_profiling (map fst (st_trace s)) = [])
              /\ (In (ProfilingStart, Raised) (st_trace s) ->
                  ends_with (st_trace s) [(ProfilingStart, Raised)]
                  /\ ~ In (CreateEngine "sqlite://") (map fst (st_trace s)))
              /\ (In (ProfilingStart, Returned) (st_trace s) ->
                  exists pre rest,
                    st_trace s
                    = pre ++ (ProfilingStart, Returned) :: session_setup ++ rest
                    /\ forallb is_makedirs (map fst pre) = true
                    /\ (gives_profiler e pre = true ->
                        (exists o, ends_with (st_trace s) [(ProfilingFinish, o)])
                        /\ filter is_profiling (map fst (st_trace s))
                           = [ProfilingStart; ProfilingFinish])
                    /\ (gives_profiler e pre = false ->
                        filter is_profiling (map fst (st_trace s))
                        = [ProfilingStart]))
              /\ (In ProfilingFinish (map fst (st_trace s)) ->
                  In (ProfilingStart, Returned) (st_trace s)))).
  main_paths args w;
    (split; [intros D; first [discriminate D | reflexivity] |]);
    (split;
     [ intros HIn; members;
       (split; [find_suffix | cbn [map fst]; intros HIn; members]) |]);
    (split;
     [ intros HIn; members;
       first [ solve [exists []; bracket] | solve [eexists [_]; bracket] ]
     | cbn [map fst]; intros HIn; members; cbn [In]; auto 12 ]).
Qed.

(** A [create] run under a profiler, and one whose [profiling.start()]
    returns [None]: nothing raises, and [profiling.finish] is called in the
    first only. *)
Lemma profiler_brackets_run_witness :
  let args := mkArgs "/home/u/.mtgcdb" false true "coll.xlsx" SubCreate in
  (In (ProfilingStart, Returned) (trace_of (main args) env_ok sample_world)
   /\ filter is_profiling (calls_of (main args) env_ok sample_world)
      = [ProfilingStart; ProfilingFinish])
  /\ (In (ProfilingStart, Returned)
         (trace_of (main args) env_no_profiler sample_world)
      /\ filter is_profiling (calls_of (main args) env_no_profiler sample_world)
         = [ProfilingStart]).
Proof.
  cbv zeta. split.
  - assert (H : In (ProfilingStart, Returned)
                   (trace_of (main (mkArgs "/home/u/.mtgcdb" false true
                                           "coll.xlsx" SubCreate))
                             env_ok sample_world)).
    { vm_compute. repeat first [left; reflexivity | right]. }
    split; [exact H |].
    destruct (proj1 (proj2 (proj2 (profiler_brackets_run _ _ _))) H)
      as (pre & rest & _ & _ & Hyes & _).
    exact (proj2 (Hyes eq_refl)).
  - assert (H : In (ProfilingStart, Returned)
                   (trace_of (main (mkArgs "/home/u/.mtgcdb" false true
                                           "coll.xlsx" SubCreate))
                             env_no_profiler sample_world)).
    { vm_compute. repeat first [left; reflexivity | right]. }
    split; [exact H |].
    destruct (proj1 (proj2 (proj2 (profiler_brackets_run _ _ _))) H)
      as (pre & rest & _ & _ & _ & Hno).
    exact (Hno eq_refl).
Defined.

Lemma nothing_after_close_sound (t : list event) :
  nothing_after_close (map fst t) = true ->
  forall pre o post,
    t = pre ++ (Close, o) :: post ->
    existsb is_session_call (map fst post) = false.
Proof.
  intros H pre; revert t H.
  induction pre as [| ev pre IH]; intros t H o post ->; cbn in H;
    apply andb_true_iff in H as [H1 H2].
  - apply negb_true_iff in H1. exact H1.
  - eapply IH; eauto.
Qed.

(** Every session [main] creates is closed: a run creates at most one
    session, calls [session.close()] as often as it created one, and makes no
    call on the session after the close, also when [profiling.finish]
    raises. *)
Theorem main_closes_its_session (args : Args) (e : env) (w : world) :
  length (filter is_close (calls_of (main args) e w))
  = length (filter is_new_session (calls_of (main args) e w))
  /\ length (filter is_new_session (calls_of (main args) e w)) <= 1
  /\ (forall pre o post,
         trace_of (main args) e w = pre ++ (Close, o) :: post ->
         existsb is_session_call (map fst post) = false).
Proof.
  unfold calls_of, trace_of.
  apply (wp_run (main args) e w
           (fun _ s =>
              length (filter is_close (map fst (st_trace s)))
              = length (filter is_new_session (map fst (st_trace s)))
              /\ length (filter is_new_session (map fst (st_trace s))) <= 1
              /\ (forall pre o post,
                     st_trace s = pre ++ (Close, o) :: post ->
                     existsb is_session_call (map fst post) = false))).
  main_paths args w;
    (split; [reflexivity | split; [cbn; repeat constructor |]]);
    apply nothing_after_close_sound; reflexivity.
Qed.

(** Under the profiler, only [profiling.finish] follows the close. *)
Lemma main_closes_its_session_witness :
  let args := mkArgs "/home/u/.mtgcdb" false true "coll.xlsx" SubCreate in
  let pre := [(ProfilingStart, Returned); (CreateEngine "sqlite://", Returned);
              (SessionMaker, Returned); (NewSession, Returned);
              (ReadMtgjson "/home/u/.mtgcdb" false, Returned);
              (Commit, Returned); (Commit, Returned); (Commit, Returned);
              (WriteXlsx "coll.xlsx", Returned)] in
  trace_of (main args) env_ok sample_world
  = pre ++ (Close, Returned) :: [(ProfilingFinish, Returned)]
  /\ existsb is_session_call (map fst [(ProfilingFinish, Returned)]) = false.
Proof.
  cbv zeta.
  assert (H : trace_of (main (mkArgs "/home/u/.mtgcdb" false true "coll.xlsx"
                                     SubCreate))
                       env_ok sample_world
              = [(ProfilingStart, Returned); (CreateEngine "sqlite://", Returned);
                 (SessionMaker, Returned); (NewSession, Returned);
                 (ReadMtgjson "/home/u/.mtgcdb" false, Returned);
                 (Commit, Returned); (Commit, Returned); (Commit, Returned);
                 (WriteXlsx "coll.xlsx", Returned)]
                ++ (Close, Returned) :: [(ProfilingFinish, Returned)])
    by reflexivity.
  split; [exact H |].
  exact (proj2 (proj2 (main_closes_its_session _ _ _)) _ _ _ H).
Defined.
